(** * A shallow embedding of [src/lambda/workout_handler.py]

    The handler is a single [try] block that reads an event (a JSON
    value), writes one object to S3, publishes one SNS message and
    returns a response built by [create_response].  Every early
    [return] and every exception raised inside the [try] block is
    modelled in a small state-and-error monad [M] whose state is the
    trace of calls made to the two AWS clients. *)

From Stdlib Require Import String Ascii ZArith List Bool Lia.
Import ListNotations.
Open Scope string_scope.
Open Scope Z_scope.
Set Warnings "-register-all".
Set Implicit Arguments.

(** ** Python exceptions: class name and [str(e)]. *)
Inductive exn : Type :=
| Exn (cls : string) (msg : string).

Definition exn_str (e : exn) : string :=
  match e with Exn _ m => m end.

Section Handler.

(** The type of Python [float] values (IEEE binary64).  Its operations
    are the ones of [pylib] below; nothing else about floats is used. *)
Variable F : Type.

(** ** JSON values as Python decodes them ([dict] keeps its key order). *)
Inductive json : Type :=
| JNull
| JBool (b : bool)
| JInt (z : Z)
| JFloat (f : F)
| JStr (s : string)
| JList (l : list json)
| JObj (kvs : list (string * json)).

(** The Python library routines the handler calls whose definition is
    not part of this repository: [float(int)], [float(str)],
    [int(float)], [bool(float)], [str(float)], [int(str)] and
    [json.loads]. *)
Record pylib : Type := {
  float_of_int : Z -> exn + F;
  float_of_str : string -> exn + F;
  int_of_float : F -> exn + Z;
  float_truthy : F -> bool;
  float_str : F -> string;
  int_of_str : string -> exn + Z;
  json_loads : string -> exn + json
}.

Variable lib : pylib.

(** ** Calls to the AWS clients *)

(** Arguments of [s3.put_object]; [Body] is the value given to
    [json.dumps(workout_data, indent=2)]. *)
Record put_request : Type := {
  put_Bucket : option string;
  put_Key : string;
  put_Body : json;
  put_ContentType : string;
  put_Metadata : list (string * json)
}.

(** Arguments of [sns.publish]. *)
Record publish_request : Type := {
  pub_TopicArn : option string;
  pub_Subject : string;
  pub_Message : string
}.

Inductive effect : Type :=
| EPut (r : put_request)
| EPublish (r : publish_request).

(** [datetime.utcnow()] as a naive [datetime]. *)
Record datetime : Type := {
  year : Z; month : Z; day : Z;
  hour : Z; minute : Z; second : Z; microsecond : Z
}.

(** The world one invocation runs in: the module-level environment
    variables, the clock, the outcome of each client call ([None] when
    the call returns, [Some e] when it raises [e]) and the index
    [random._randbelow] draws inside [random.choice]. *)
Record world : Type := {
  DATA_BUCKET_NAME : option string;
  SNS_TOPIC_ARN : option string;
  utcnow : datetime;
  s3_put_object : put_request -> option exn;
  sns_publish : publish_request -> option exn;
  randbelow : nat
}.

(** ** The state-and-error monad: the trace of client calls made so
    far, and either a raised exception or a value. *)
Definition M (A : Type) : Type := list effect -> list effect * (exn + A).

Definition ret {A} (a : A) : M A := fun tr => (tr, inr a).
Definition raise {A} (e : exn) : M A := fun tr => (tr, inl e).
Definition bind {A B} (m : M A) (f : A -> M B) : M B :=
  fun tr => match m tr with
            | (tr', inl e) => (tr', inl e)
            | (tr', inr a) => f a tr'
            end.
Definition lift {A} (r : exn + A) : M A :=
  match r with inl e => raise e | inr a => ret a end.

Notation "x <- m ;; k" := (bind m (fun x => k))
  (at level 61, m at next level, right associativity).

(** ** Python builtins over JSON values *)

Definition nl : string := String "010"%char EmptyString.

(** [str(n)] for a non-negative integer. *)
Fixpoint dec_aux (fuel : nat) (n : Z) (acc : string) : string :=
  match fuel with
  | O => acc
  | S f =>
      let acc' := String (ascii_of_nat (48 + Z.to_nat (n mod 10))) acc in
      if n <? 10 then acc' else dec_aux f (n / 10) acc'
  end.

Definition dec_nonneg (n : Z) : string :=
  dec_aux (S (Z.to_nat (Z.log2 n))) n "".

(** [str(z)] for a Python [int]. *)
Definition py_int_str (z : Z) : string :=
  if z <? 0 then "-" ++ dec_nonneg (- z) else dec_nonneg z.

Fixpoint zeros (k : nat) : string :=
  match k with O => "" | S k' => String "0"%char (zeros k') end.

(** C's [%0wd] for a non-negative integer. *)
Definition zpad (w : nat) (n : Z) : string :=
  let s := dec_nonneg n in zeros (w - String.length s) ++ s.

(** [datetime.strftime] for the directives the handler uses.  [%Y] is
    glibc's (the Lambda runtime is Python 3.9 on Linux): the year in
    decimal with no padding; [%m %d %H %M %S] are two-digit. *)
Definition directive (t : datetime) (c : ascii) : string :=
  if Ascii.eqb c "Y"%char then dec_nonneg (year t)
  else if Ascii.eqb c "m"%char then zpad 2 (month t)
  else if Ascii.eqb c "d"%char then zpad 2 (day t)
  else if Ascii.eqb c "H"%char then zpad 2 (hour t)
  else if Ascii.eqb c "M"%char then zpad 2 (minute t)
  else if Ascii.eqb c "S"%char then zpad 2 (second t)
  else String "%"%char (String c "").

Fixpoint strftime (t : datetime) (fmt : string) : string :=
  match fmt with
  | EmptyString => ""
  | String c rest =>
      if Ascii.eqb c "%"%char then
        match rest with
        | EmptyString => "%"
        | String d rest' => directive t d ++ strftime t rest'
        end
      else String c (strftime t rest)
  end.

(** [datetime.isoformat()] of a naive datetime:
    ["%04d-%02d-%02dT%02d:%02d:%02d"], then [".%06d"] when the
    microsecond is not zero. *)
Definition isoformat (t : datetime) : string :=
  zpad 4 (year t) ++ "-" ++ zpad 2 (month t) ++ "-" ++ zpad 2 (day t)
  ++ "T" ++ zpad 2 (hour t) ++ ":" ++ zpad 2 (minute t) ++ ":"
  ++ zpad 2 (second t)
  ++ (if microsecond t =? 0 then "" else "." ++ zpad 6 (microsecond t)).

(** [bool(v)] *)
Definition truthy (v : json) : bool :=
  match v with
  | JNull => false
  | JBool b => b
  | JInt z => negb (z =? 0)
  | JFloat f => float_truthy lib f
  | JStr s => negb (String.eqb s "")
  | JList l => match l with [] => false | _ => true end
  | JObj kvs => match kvs with [] => false | _ => true end
  end.

(** [a or b] *)
Definition py_or (a b : json) : json := if truthy a then a else b.

Definition type_name (v : json) : string :=
  match v with
  | JNull => "NoneType" | JBool _ => "bool" | JInt _ => "int"
  | JFloat _ => "float" | JStr _ => "str" | JList _ => "list"
  | JObj _ => "dict"
  end.

Fixpoint lookup (k : string) (kvs : list (string * json)) : option json :=
  match kvs with
  | [] => None
  | (k', v) :: rest => if String.eqb k k' then Some v else lookup k rest
  end.

(** [d.get(k, default)]: only a [dict] has [get]. *)
Definition py_get (d : json) (k : string) (default : json) : exn + json :=
  match d with
  | JObj kvs =>
      match lookup k kvs with Some v => inr v | None => inr default end
  | _ => inl (Exn "AttributeError"
                ("'" ++ type_name d ++ "' object has no attribute 'get'"))
  end.

(** [repr(s)] of a [str], character by character on its UTF-8 bytes:
    single quotes unless the text has a single quote and no double
    quote; backslash, the quote, [\n], [\r], [\t] and the other ASCII
    control characters are escaped. *)
Definition hexdigit (n : nat) : ascii :=
  if Nat.ltb n 10 then ascii_of_nat (48 + n) else ascii_of_nat (87 + n).

Definition escape_char (q : ascii) (c : ascii) : string :=
  let n := nat_of_ascii c in
  if Ascii.eqb c q || Ascii.eqb c "\"%char then String "\"%char (String c "")
  else if Nat.eqb n 10 then "\n"
  else if Nat.eqb n 13 then "\r"
  else if Nat.eqb n 9 then "\t"
  else if Nat.ltb n 32 || Nat.eqb n 127 then
    String "\"%char (String "x"%char
      (String (hexdigit (n / 16)) (String (hexdigit (n mod 16)) "")))
  else String c "".

Fixpoint has_char (c : ascii) (s : string) : bool :=
  match s with
  | EmptyString => false
  | String c' r => Ascii.eqb c c' || has_char c r
  end.

Fixpoint escape_all (q : ascii) (s : string) : string :=
  match s with
  | EmptyString => ""
  | String c r => escape_char q c ++ escape_all q r
  end.

Definition repr_str (s : string) : string :=
  let q := if has_char "'"%char s && negb (has_char "034"%char s)
           then "034"%char else "'"%char in
  String q (escape_all q s ++ String q "").

Fixpoint join (sep : string) (l : list string) : string :=
  match l with
  | [] => ""
  | [x] => x
  | x :: rest => x ++ sep ++ join sep rest
  end.

(** [repr(v)]; for [float], [repr] and [str] agree in Python 3. *)
Fixpoint py_repr (v : json) : string :=
  match v with
  | JNull => "None"
  | JBool true => "True"
  | JBool false => "False"
  | JInt z => py_int_str z
  | JFloat f => float_str lib f
  | JStr s => repr_str s
  | JList l => "[" ++ join ", " (map py_repr l) ++ "]"
  | JObj kvs =>
      "{" ++ join ", " (map (fun kv => repr_str (fst kv) ++ ": " ++ py_repr (snd kv)) kvs)
      ++ "}"
  end.

(** [str(v)], which is also what an f-string inserts. *)
Definition py_str (v : json) : string :=
  match v with
  | JStr s => s
  | _ => py_repr v
  end.

(** [int(v)] *)
Definition py_int (v : json) : exn + Z :=
  match v with
  | JInt z => inr z
  | JBool b => inr (if b then 1 else 0)
  | JFloat f => int_of_float lib f
  | JStr s => int_of_str lib s
  | _ => inl (Exn "TypeError"
                ("int() argument must be a string, a bytes-like object or a number, not '"
                 ++ type_name v ++ "'"))
  end.

(** [float(v)] *)
Definition py_float (v : json) : exn + F :=
  match v with
  | JInt z => float_of_int lib z
  | JBool b => float_of_int lib (if b then 1 else 0)
  | JFloat f => inr f
  | JStr s => float_of_str lib s
  | _ => inl (Exn "TypeError"
                ("float() argument must be a string or a number, not '"
                 ++ type_name v ++ "'"))
  end.

(** [random.choice(seq)] is [seq[random._randbelow(len(seq))]]; the
    draw [k] is taken modulo [len(seq)]. *)
Definition random_choice (k : nat) (l : list string) : string :=
  nth (k mod List.length l) l "".

Definition MOTIVATIONAL_MESSAGES : list string :=
  ["Great workout! Keep pushing! 💪";
   "You're crushing it! Consistency is key! 🔥";
   "Workout logged! Your dedication is impressive! 🌟";
   "Another step closer to your goals! Keep it up! 🚀";
   "Fantastic effort! Your future self will thank you! 💯";
   "Beast mode activated! Well done! 🦁";
   "Progress over perfection! You're doing amazing! ⭐";
   "Every rep counts! Great job today! 🏋️"].

Definition RULE : string := "━━━━━━━━━━━━━━━━━━".

(** ** [create_response] *)

Record response : Type := {
  statusCode : Z;
  headers : list (string * string);
  (** the value [json.dumps] serializes into the HTTP body *)
  body : json
}.

Definition cors_headers : list (string * string) :=
  [("Content-Type", "application/json");
   ("Access-Control-Allow-Origin", "*");
   ("Access-Control-Allow-Headers",
    "Content-Type,X-Amz-Date,Authorization,X-Api-Key,X-Amz-Security-Token");
   ("Access-Control-Allow-Methods", "OPTIONS,POST,GET")].

Definition create_response (status_code : Z) (b : json) : response :=
  {| statusCode := status_code; headers := cors_headers; body := b |}.

(** ** The steps of [lambda_handler] *)

(** Line 37: [event.get('requestContext', {}).get('http', {}).get('method')
    or event.get('httpMethod')]. *)
Definition get_request_method (event : json) : exn + json :=
  match py_get event "requestContext" (JObj []) with
  | inl e => inl e
  | inr rc =>
      match py_get rc "http" (JObj []) with
      | inl e => inl e
      | inr h =>
          match py_get h "method" JNull with
          | inl e => inl e
          | inr m => if truthy m then inr m else py_get event "httpMethod" JNull
          end
      end
  end.

Definition is_str (v : json) (s : string) : bool :=
  match v with JStr s' => String.eqb s' s | _ => false end.

(** [k in event and event.get(k) == '/health'] for a [dict] event (the
    only kind that reaches lines 42-45: [event.get] on line 37 raised
    otherwise). *)
Definition health_key (event : json) (k : string) : bool :=
  match event with
  | JObj kvs =>
      match lookup k kvs with Some v => is_str v "/health" | None => false end
  | _ => false
  end.

Definition is_health (event : json) : bool :=
  health_key event "rawPath" || health_key event "path".

(** Lines 48-51. *)
Definition parse_body (event : json) : exn + json :=
  match event with
  | JObj kvs =>
      match lookup "body" kvs with
      | Some (JStr raw) => json_loads lib raw
      | Some b => inr b
      | None => inr event
      end
  | _ => inr event
  end.

(** [int(v) if v else None] and [float(v) if v else None]. *)
Definition opt_int (v : json) : exn + json :=
  if truthy v then
    match py_int v with inl e => inl e | inr z => inr (JInt z) end
  else inr JNull.

Definition opt_float (v : json) : exn + json :=
  if truthy v then
    match py_float v with inl e => inl e | inr f => inr (JFloat f) end
  else inr JNull.

Definition record_date (t : datetime) : string := strftime t "%Y-%m-%d".
Definition record_time (t : datetime) : string := strftime t "%H:%M:%S".

(** Lines 67-77: the dict literal, its values evaluated in order. *)
Definition mk_workout_data (user_id exercise sets reps weight notes : json)
    (timestamp : datetime) : exn + json :=
  match opt_int sets with
  | inl e => inl e
  | inr sv =>
      match opt_int reps with
      | inl e => inl e
      | inr rv =>
          match opt_float weight with
          | inl e => inl e
          | inr wv =>
              inr (JObj [("userId", user_id); ("exercise", exercise);
                         ("sets", sv); ("reps", rv); ("weight", wv);
                         ("notes", notes);
                         ("timestamp", JStr (isoformat timestamp));
                         ("date", JStr (record_date timestamp));
                         ("time", JStr (record_time timestamp))])
          end
      end
  end.

(** Line 80. *)
Definition file_key (user_id : json) (timestamp : datetime) : string :=
  py_str user_id ++ "/" ++ strftime timestamp "%Y/%m" ++ "/"
  ++ strftime timestamp "%Y-%m-%d_%H-%M-%S" ++ ".json".

(** Lines 99-113. *)
Definition workout_summary (message : string)
    (exercise sets reps weight notes : json) (timestamp : datetime) : string :=
  let s :=
    nl ++ message ++ nl ++ nl ++ "Workout Details:" ++ nl ++ RULE ++ nl
    ++ "Exercise: " ++ py_str exercise ++ nl
    ++ "Sets: " ++ py_str (py_or sets (JStr "N/A")) ++ nl
    ++ "Reps: " ++ py_str (py_or reps (JStr "N/A")) ++ nl
    ++ "Weight: " ++ py_str (py_or weight (JStr "N/A")) ++ " lbs" ++ nl
    ++ "Date: " ++ record_date timestamp ++ nl
    ++ "Time: " ++ record_time timestamp ++ nl in
  if truthy notes then s ++ nl ++ "Notes: " ++ py_str notes else s.

(** A client call: it is recorded in the trace, then returns or raises
    as the world decides. *)
Definition s3_put (w : world) (r : put_request) : M unit :=
  fun tr => (app tr [EPut r],
             match s3_put_object w r with None => inr tt | Some e => inl e end).

Definition publish (w : world) (r : publish_request) : M unit :=
  fun tr => (app tr [EPublish r],
             match sns_publish w r with None => inr tt | Some e => inl e end).

(** The body of the [try] block, lines 37-128. *)
Definition handler_try (w : world) (event : json) : M response :=
  request_method <- lift (get_request_method event) ;;
  if is_str request_method "OPTIONS" then
    ret (create_response 200 (JObj [("message", JStr "CORS preflight")]))
  else if is_health event then
    ret (create_response 200 (JObj [("status", JStr "healthy");
                                    ("message", JStr "Lambda is running")]))
  else
  b <- lift (parse_body event) ;;
  user_id <- lift (py_get b "userId" (JStr "anonymous")) ;;
  exercise <- lift (py_get b "exercise" JNull) ;;
  sets <- lift (py_get b "sets" JNull) ;;
  reps <- lift (py_get b "reps" JNull) ;;
  weight <- lift (py_get b "weight" JNull) ;;
  notes <- lift (py_get b "notes" (JStr "")) ;;
  if negb (truthy exercise) then
    ret (create_response 400 (JObj [("error", JStr "Exercise name is required")]))
  else
  let timestamp := utcnow w in
  workout_data <- lift (mk_workout_data user_id exercise sets reps weight notes timestamp) ;;
  _ <- s3_put w {| put_Bucket := DATA_BUCKET_NAME w;
                   put_Key := file_key user_id timestamp;
                   put_Body := workout_data;
                   put_ContentType := "application/json";
                   put_Metadata := [("user-id", user_id); ("exercise", exercise);
                                    ("date", JStr (record_date timestamp))] |} ;;
  let message := random_choice (randbelow w) MOTIVATIONAL_MESSAGES in
  _ <- publish w {| pub_TopicArn := SNS_TOPIC_ARN w;
                    pub_Subject := "FitLog: Workout Logged - " ++ py_str exercise;
                    pub_Message := workout_summary message exercise sets reps
                                     weight notes timestamp |} ;;
  ret (create_response 200 (JObj [("message", JStr "Workout logged successfully!");
                                  ("data", workout_data);
                                  ("motivation", JStr message)])).

(** [lambda_handler(event, context)]: the [except Exception] clause
    turns every raised exception into a 500 response.  (Line 33 logs
    [json.dumps(event)], which cannot raise on a decoded JSON event.) *)
Definition lambda_handler (w : world) (event : json) : response * list effect :=
  match handler_try w event [] with
  | (tr, inr r) => (r, tr)
  | (tr, inl e) =>
      (create_response 500 (JObj [("error", JStr "Failed to log workout");
                                  ("details", JStr (exn_str e))]), tr)
  end.

End Handler.

Arguments JNull {F}.
Arguments JBool {F} b.
Arguments JInt {F} z.
Arguments JFloat {F} f.
Arguments JStr {F} s.
Arguments JList {F} l.
Arguments JObj {F} kvs.
Arguments EPut {F} r.
Arguments EPublish {F} r.
Arguments ret {F A} a _.
Arguments raise {F A} e _.
Arguments bind {F A B} m f _.
Arguments lift {F A} r _.

(** ** A concrete library for evaluating the handler on small inputs

    [int(str)] on ASCII text: surrounding whitespace is stripped, then
    an optional sign and decimal digits, single underscores allowed
    between digits. *)
Definition is_py_space (c : ascii) : bool :=
  let n := nat_of_ascii c in
  (Nat.leb 9 n && Nat.leb n 13) || (Nat.leb 28 n && Nat.leb n 32).

Fixpoint drop_space (l : list ascii) : list ascii :=
  match l with
  | c :: r => if is_py_space c then drop_space r else l
  | [] => []
  end.

Definition strip (s : string) : list ascii :=
  rev (drop_space (rev (drop_space (list_ascii_of_string s)))).

Fixpoint parse_digits (l : list ascii) (acc : Z) (seen prev_us : bool) : option Z :=
  match l with
  | [] => if seen && negb prev_us then Some acc else None
  | c :: r =>
      let n := nat_of_ascii c in
      if Nat.leb 48 n && Nat.leb n 57 then
        parse_digits r (acc * 10 + Z.of_nat (n - 48)) true false
      else if Nat.eqb n 95 && seen && negb prev_us then
        parse_digits r acc seen true
      else None
  end.

Definition parse_int_ascii (s : string) : option Z :=
  match strip s with
  | c :: r =>
      if Ascii.eqb c "-"%char then option_map Z.opp (parse_digits r 0 false false)
      else if Ascii.eqb c "+"%char then parse_digits r 0 false false
      else parse_digits (c :: r) 0 false false
  | [] => None
  end.

Definition py_int_of_str_ascii (s : string) : exn + Z :=
  match parse_int_ascii s with
  | Some z => inr z
  | None => inl (Exn "ValueError"
                   ("invalid literal for int() with base 10: " ++ repr_str s))
  end.

(** Integer-valued floats: enough for the inputs evaluated below. *)
Definition demo_lib : pylib Z := {|
  float_of_int := fun z => inr z;
  float_of_str := fun s =>
    match parse_int_ascii s with
    | Some z => inr z
    | None => inl (Exn "ValueError"
                     ("could not convert string to float: " ++ repr_str s))
    end;
  int_of_float := fun z => inr z;
  float_truthy := fun z => negb (z =? 0);
  float_str := fun z => py_int_str z ++ ".0";
  int_of_str := py_int_of_str_ascii;
  json_loads := fun _ =>
    inl (Exn "JSONDecodeError" "Expecting value: line 1 column 1 (char 0)")
|}.

Definition demo_time : datetime :=
  {| year := 2024; month := 3; day := 7; hour := 9; minute := 5;
     second := 42; microsecond := 123456 |}.

Definition demo_world (k : nat) : world Z := {|
  DATA_BUCKET_NAME := Some "fitlog-data";
  SNS_TOPIC_ARN := Some "arn:aws:sns:us-east-1:0123456789:fitlog";
  utcnow := demo_time;
  s3_put_object := fun _ => None;
  sns_publish := fun _ => None;
  randbelow := k
|}.

Definition bench_kvs : list (string * json Z) :=
  [("userId", JStr "u1"); ("exercise", JStr "Bench Press");
   ("sets", JInt 3); ("reps", JInt 10); ("weight", JInt 135);
   ("notes", JStr "felt strong")].

Definition bench_body : json Z := JObj bench_kvs.

Definition post_event (b : json Z) : json Z :=
  JObj [("requestContext", JObj [("http", JObj [("method", JStr "POST")])]);
        ("rawPath", JStr "/"); ("body", b)].

Definition options_event : json Z :=
  JObj [("requestContext", JObj [("http", JObj [("method", JStr "OPTIONS")])]);
        ("rawPath", JStr "/workouts");
        ("body", JObj [("exercise", JStr "Squat")])].

(** Reading a response: [v[k]] on a [dict]. *)
Definition field {F} (v : json F) (k : string) : option (json F) :=
  match v with JObj kvs => lookup k kvs | _ => None end.

Fixpoint count_puts {F} (tr : list (effect F)) : nat :=
  match tr with
  | [] => O
  | EPut _ :: r => S (count_puts r)
  | _ :: r => count_puts r
  end.

Fixpoint count_publishes {F} (tr : list (effect F)) : nat :=
  match tr with
  | [] => O
  | EPublish _ :: r => S (count_publishes r)
  | _ :: r => count_publishes r
  end.

(** * Properties *)

Section Proofs.
Context {F : Type} (lib : pylib F).

(** Every value a computation returns satisfies [P]. *)
Definition returns_only {A} (P : A -> Prop) (m : M F A) : Prop :=
  forall tr, match snd (m tr) with inr a => P a | inl _ => True end.

Lemma returns_only_ret {A} (P : A -> Prop) (a : A) :
  P a -> returns_only P (ret a).
Proof. intros H tr; exact H. Qed.

Lemma returns_only_bind {A B} (P : B -> Prop) (m : M F A) (f : A -> M F B) :
  (forall a, returns_only P (f a)) -> returns_only P (bind m f).
Proof.
  intros Hf tr; unfold bind.
  destruct (m tr) as [tr' [e | a]]; [exact I | apply Hf].
Qed.

Lemma returns_only_if {A} (P : A -> Prop) (b : bool) (m1 m2 : M F A) :
  returns_only P m1 -> returns_only P m2 ->
  returns_only P (if b then m1 else m2).
Proof. destruct b; auto. Qed.

Lemma handler_try_headers (w : world F) (event : json F) :
  returns_only (fun r => headers r = cors_headers) (handler_try lib w event).
Proof.
  unfold handler_try.
  repeat first
    [ apply returns_only_bind; intros
    | apply returns_only_if
    | apply returns_only_ret; reflexivity ].
Qed.

(** A value the [try] block returns is a 200 or a 400: every other
    outcome is a raised exception. *)
Lemma handler_try_status (w : world F) (event : json F) :
  returns_only (fun r => statusCode r = 200 \/ statusCode r = 400)
    (handler_try lib w event).
Proof.
  unfold handler_try.
  repeat first
    [ apply returns_only_bind; intros
    | apply returns_only_if
    | apply returns_only_ret; cbn; auto ].
Qed.

Lemma str_app_assoc (a b c : string) : (a ++ b) ++ c = a ++ (b ++ c).
Proof. induction a as [| x a IH]; simpl; [reflexivity | now rewrite IH]. Qed.

Lemma str_app_nonempty (a b : string) (c : ascii) : a ++ String c b <> "".
Proof. destruct a; discriminate. Qed.

(** C5: every response of the handler, whatever the outcome, carries
    [Content-Type: application/json], [Access-Control-Allow-Origin: *]
    and the enumerated allowed headers and methods. *)
Theorem every_response_has_cors_headers (w : world F) (event : json F) :
  headers (fst (lambda_handler lib w event)) = cors_headers.
Proof.
  unfold lambda_handler.
  pose proof (handler_try_headers w event []) as H.
  destruct (handler_try lib w event []) as [tr [e | r]]; simpl in *; auto.
Qed.

(** C3, as the code has it: a request whose method (line 37) is
    [OPTIONS] gets status 200 with the body [{"message": "CORS
    preflight"}] whatever its path and body, and no client is called. *)
Theorem options_preflight (w : world F) (event m : json F) :
  get_request_method lib event = inr m -> is_str m "OPTIONS" = true ->
  lambda_handler lib w event =
    (create_response 200 (JObj [("message", JStr "CORS preflight")]), []).
Proof.
  intros Hm Ho.
  unfold lambda_handler, handler_try, bind at 1; simpl.
  rewrite Hm; simpl; now rewrite Ho.
Qed.

(** C2: on the ingest path, a body without [exercise], or with
    [exercise] null or empty, gets status 400 with an error payload and
    neither client is called. *)
Theorem missing_exercise_400 (w : world F) (event m : json F)
    (kvs : list (string * json F)) :
  get_request_method lib event = inr m -> is_str m "OPTIONS" = false ->
  is_health event = false ->
  parse_body lib event = inr (JObj kvs) ->
  (lookup "exercise" kvs = None \/ lookup "exercise" kvs = Some JNull \/
   lookup "exercise" kvs = Some (JStr "")) ->
  lambda_handler lib w event =
    (create_response 400 (JObj [("error", JStr "Exercise name is required")]), []).
Proof.
  intros Hm Ho Hh Hb Hex.
  unfold lambda_handler, handler_try, bind, lift, ret; simpl.
  rewrite Hm, Ho, Hh, Hb; simpl.
  destruct (lookup "userId" kvs), (lookup "sets" kvs), (lookup "reps" kvs),
    (lookup "weight" kvs), (lookup "notes" kvs);
  destruct Hex as [-> | [-> | ->]]; reflexivity.
Qed.

Lemma isoformat_nonempty (t : datetime) : isoformat t <> "".
Proof. unfold isoformat. apply str_app_nonempty. Qed.

(** The put request and the publish request of a run that got past
    validation. *)
Definition put_req_of (w : world F) (user_id exercise d : json F) : put_request F :=
  {| put_Bucket := DATA_BUCKET_NAME w;
     put_Key := file_key lib user_id (utcnow w);
     put_Body := d;
     put_ContentType := "application/json";
     put_Metadata := [("user-id", user_id); ("exercise", exercise);
                      ("date", JStr (record_date (utcnow w)))] |}.

Definition pub_req_of (w : world F) (exercise sets reps weight notes : json F)
    : publish_request :=
  {| pub_TopicArn := SNS_TOPIC_ARN w;
     pub_Subject := "FitLog: Workout Logged - " ++ py_str lib exercise;
     pub_Message := workout_summary lib
                      (random_choice (randbelow w) MOTIVATIONAL_MESSAGES)
                      exercise sets reps weight notes (utcnow w) |}.

(** A run whose response has a [data] field went through the whole
    ingest path: every step succeeded and both clients were called once. *)
Lemma handler_success (w : world F) (event : json F) resp tr d :
  lambda_handler lib w event = (resp, tr) -> field (body resp) "data" = Some d ->
  exists m b user_id exercise sets reps weight notes,
    get_request_method lib event = inr m /\ is_str m "OPTIONS" = false /\
    is_health event = false /\ parse_body lib event = inr b /\
    py_get b "userId" (JStr "anonymous") = inr user_id /\
    py_get b "exercise" JNull = inr exercise /\
    py_get b "sets" JNull = inr sets /\ py_get b "reps" JNull = inr reps /\
    py_get b "weight" JNull = inr weight /\ py_get b "notes" (JStr "") = inr notes /\
    truthy lib exercise = true /\
    mk_workout_data lib user_id exercise sets reps weight notes (utcnow w) = inr d /\
    s3_put_object w (put_req_of w user_id exercise d) = None /\
    sns_publish w (pub_req_of w exercise sets reps weight notes) = None /\
    tr = [EPut (put_req_of w user_id exercise d);
          EPublish (pub_req_of w exercise sets reps weight notes)] /\
    resp = create_response 200
             (JObj [("message", JStr "Workout logged successfully!");
                    ("data", d);
                    ("motivation",
                     JStr (random_choice (randbelow w) MOTIVATIONAL_MESSAGES))]).
Proof.
  intros H Hd.
  unfold lambda_handler, handler_try, bind, lift, ret, raise, s3_put, publish in H.
  repeat (simpl in H;
    match type of H with
    | context [match ?x with _ => _ end] =>
        lazymatch x with
        | context [match _ with _ => _ end] => fail
        | _ => let E := fresh "E" in destruct x eqn:E
        end
    end).
  all: simpl in H; inversion H; subst; simpl in Hd; try discriminate.
  injection Hd as <-.
  exists j, j0, j1, j2, j3, j4, j5, j6.
  repeat split; try assumption; try reflexivity.
  now apply Bool.negb_false_iff.
Qed.

(** C1: on the ingest path, a body with [userId "u1"], [exercise
    "Bench Press"], [sets 3], [reps 10], [weight 135] and [notes "felt
    strong"] (other keys allowed), when the storage write and the
    publish go through, gets status 200 with [data.exercise],
    [data.sets = 3], [data.reps = 10], [data.weight = float(135)], i.e.
    [135.0], [data.notes] and a non-empty [data.timestamp], and exactly
    one storage write and one publish are made. *)
Theorem bench_press_ingest (w : world F) (event m : json F)
    (kvs : list (string * json F)) (f135 : F) :
  get_request_method lib event = inr m -> is_str m "OPTIONS" = false ->
  is_health event = false ->
  parse_body lib event = inr (JObj kvs) ->
  lookup "userId" kvs = Some (JStr "u1") ->
  lookup "exercise" kvs = Some (JStr "Bench Press") ->
  lookup "sets" kvs = Some (JInt 3) ->
  lookup "reps" kvs = Some (JInt 10) ->
  lookup "weight" kvs = Some (JInt 135) ->
  lookup "notes" kvs = Some (JStr "felt strong") ->
  float_of_int lib 135 = inr f135 ->
  (forall r, s3_put_object w r = None) ->
  (forall r, sns_publish w r = None) ->
  let (resp, tr) := lambda_handler lib w event in
  statusCode resp = 200 /\
  (exists d, field (body resp) "data" = Some d /\
     field d "exercise" = Some (JStr "Bench Press") /\
     field d "sets" = Some (JInt 3) /\
     field d "reps" = Some (JInt 10) /\
     field d "weight" = Some (JFloat f135) /\
     field d "notes" = Some (JStr "felt strong") /\
     exists ts, field d "timestamp" = Some (JStr ts) /\ ts <> "") /\
  count_puts tr = 1%nat /\ count_publishes tr = 1%nat.
Proof.
  intros Hm Ho Hh Hb Hu He Hs Hr Hw Hn Hf Hput Hpub.
  unfold lambda_handler, handler_try, bind, lift, ret, s3_put, publish; simpl.
  rewrite Hm, Ho, Hh, Hb; simpl.
  rewrite Hu, He, Hs, Hr, Hw, Hn; simpl.
  unfold mk_workout_data, opt_int, opt_float; simpl.
  rewrite Hf, Hput, Hpub; simpl.
  split; [reflexivity |].
  split; [| split; reflexivity].
  eexists; split; [reflexivity |].
  repeat split; [].
  eexists; split; [reflexivity | apply isoformat_nonempty].
Qed.

(** C4: on the ingest path, a body with a non-empty [exercise] and a
    [sets] string that [int()] rejects (non-numeric, such as ["abc"])
    gets status 500; the conversion fails before the storage write and
    the publish, so no client is called. *)
Theorem non_numeric_sets_500 (w : world F) (event m ex : json F)
    (kvs : list (string * json F)) (s : string) (e : exn) :
  get_request_method lib event = inr m -> is_str m "OPTIONS" = false ->
  is_health event = false ->
  parse_body lib event = inr (JObj kvs) ->
  lookup "exercise" kvs = Some ex -> truthy lib ex = true ->
  lookup "sets" kvs = Some (JStr s) -> s <> "" ->
  int_of_str lib s = inl e ->
  lambda_handler lib w event =
    (create_response 500 (JObj [("error", JStr "Failed to log workout");
                                ("details", JStr (exn_str e))]), []).
Proof.
  intros Hm Ho Hh Hb He Ht Hs Hne Hi.
  assert (Hsb : String.eqb s "" = false) by now apply String.eqb_neq.
  unfold lambda_handler, handler_try, bind, lift, ret, raise; simpl.
  rewrite Hm, Ho, Hh, Hb; simpl.
  rewrite He, Hs, Ht; simpl.
  unfold mk_workout_data, opt_int; simpl.
  rewrite Hsb; simpl; rewrite Hi.
  destruct (lookup "userId" kvs), (lookup "reps" kvs), (lookup "weight" kvs),
    (lookup "notes" kvs); reflexivity.
Qed.

Lemma mk_workout_data_fields user_id exercise sets reps weight notes t d :
  mk_workout_data lib user_id exercise sets reps weight notes t = inr d ->
  field d "userId" = Some user_id /\ field d "exercise" = Some exercise /\
  field d "timestamp" = Some (JStr (isoformat t)) /\
  field d "date" = Some (JStr (record_date t)) /\
  field d "time" = Some (JStr (record_time t)).
Proof.
  unfold mk_workout_data.
  destruct (opt_int lib sets), (opt_int lib reps), (opt_float lib weight);
    intros H; try discriminate.
  injection H as <-; repeat split.
Qed.

Lemma strftime_key_split (t : datetime) :
  strftime t "%Y-%m-%d_%H-%M-%S" = record_date t ++ "_" ++ strftime t "%H-%M-%S".
Proof.
  unfold record_date; simpl.
  repeat (rewrite str_app_assoc; simpl).
  reflexivity.
Qed.

(** C6, as the code has it: a successful ingest writes one object, under
    [{userId}/{%Y}/{%m}/{date}_{%H-%M-%S}.json] (the time part of the key
    uses hyphens, not the colons of the record's [time] field), with the
    record as body and metadata [user-id], [exercise] and [date]. *)
Theorem storage_key_and_metadata (w : world F) (event : json F) resp tr d :
  lambda_handler lib w event = (resp, tr) -> field (body resp) "data" = Some d ->
  exists user_id exercise pub,
    field d "userId" = Some user_id /\ field d "exercise" = Some exercise /\
    field d "date" = Some (JStr (record_date (utcnow w))) /\
    tr = [EPut {| put_Bucket := DATA_BUCKET_NAME w;
                  put_Key := py_str lib user_id ++ "/" ++ strftime (utcnow w) "%Y/%m"
                             ++ "/" ++ record_date (utcnow w) ++ "_"
                             ++ strftime (utcnow w) "%H-%M-%S" ++ ".json";
                  put_Body := d;
                  put_ContentType := "application/json";
                  put_Metadata := [("user-id", user_id); ("exercise", exercise);
                                   ("date", JStr (record_date (utcnow w)))] |};
          EPublish pub].
Proof.
  intros H Hd.
  destruct (handler_success w event H Hd)
    as (m & b & u & ex & se & re & we & no & _ & _ & _ & _ & _ & _ & _ & _ & _ & _ &
        _ & Hmk & _ & _ & Htr & _).
  apply mk_workout_data_fields in Hmk as (Hu & He & _ & Hdate & _).
  exists u, ex, (pub_req_of w ex se re we no).
  repeat split; auto.
  rewrite Htr; unfold put_req_of, file_key.
  rewrite strftime_key_split, !str_app_assoc; reflexivity.
Qed.

Lemma dec_aux_length f n acc :
  (String.length acc <= String.length (dec_aux f n acc))%nat.
Proof.
  revert n acc; induction f as [| f IH]; intros n acc; simpl; [lia |].
  destruct (n <? 10); simpl; [lia |].
  specialize (IH (n / 10) (String (ascii_of_nat (48 + Z.to_nat (n mod 10))) acc)).
  simpl in IH; lia.
Qed.

Lemma dec_aux_length_pow f n acc (k : nat) :
  10 ^ Z.of_nat k <= n -> (k < f)%nat ->
  (k + 1 + String.length acc <= String.length (dec_aux f n acc))%nat.
Proof.
  revert n acc k; induction f as [| f IH]; intros n acc k Hk Hf; [lia |].
  simpl. destruct (n <? 10) eqn:Hn.
  - apply Z.ltb_lt in Hn.
    destruct k as [| k]; simpl; [lia |].
    assert (10 <= 10 ^ Z.of_nat (S k)).
    { rewrite Nat2Z.inj_succ, Z.pow_succ_r by lia.
      pose proof (Z.pow_pos_nonneg 10 (Z.of_nat k)); lia. }
    lia.
  - apply Z.ltb_ge in Hn.
    destruct k as [| k].
    + pose proof (dec_aux_length f (n / 10)
                    (String (ascii_of_nat (48 + Z.to_nat (n mod 10))) acc)).
      simpl in *; lia.
    + assert (Hk' : 10 ^ Z.of_nat k <= n / 10).
      { apply Z.div_le_lower_bound; [lia |].
        rewrite Nat2Z.inj_succ, Z.pow_succ_r in Hk by lia; lia. }
      specialize (IH (n / 10) (String (ascii_of_nat (48 + Z.to_nat (n mod 10))) acc)
                    k Hk' ltac:(lia)).
      simpl in IH; lia.
Qed.

(** From year 1000 on, [%04d] and glibc's [%Y] print the year alike. *)
Lemma zpad4_year (y : Z) : 1000 <= y -> zpad 4 y = dec_nonneg y.
Proof.
  intros Hy; unfold zpad, dec_nonneg.
  assert (Hl : (3 < S (Z.to_nat (Z.log2 y)))%nat).
  { assert (Z.log2 8 <= Z.log2 y) by (apply Z.log2_le_mono; lia).
    change (Z.log2 8) with 3 in H; lia. }
  pose proof (@dec_aux_length_pow (S (Z.to_nat (Z.log2 y))) y "" 3
                ltac:(simpl; lia) Hl) as Hlen.
  change (String.length "") with O in Hlen.
  replace (4 - String.length (dec_aux (S (Z.to_nat (Z.log2 y))) y ""))%nat
    with O by lia.
  reflexivity.
Qed.

(** C8: the record of a successful ingest takes [timestamp], [date] and
    [time] from the one [datetime.utcnow()] value of the invocation:
    [date] is its [%Y-%m-%d], [time] its [%H:%M:%S], and [timestamp]
    (its ISO form) is [date], ["T"], [time] and the microseconds.  The
    bound on the year holds for any clock reading taken at request time. *)
Theorem record_fields_one_instant (w : world F) (event : json F) resp tr d :
  lambda_handler lib w event = (resp, tr) -> field (body resp) "data" = Some d ->
  1000 <= year (utcnow w) ->
  field d "timestamp" = Some (JStr (isoformat (utcnow w))) /\
  field d "date" = Some (JStr (record_date (utcnow w))) /\
  field d "time" = Some (JStr (record_time (utcnow w))) /\
  isoformat (utcnow w) =
    record_date (utcnow w) ++ "T" ++ record_time (utcnow w)
    ++ (if microsecond (utcnow w) =? 0 then ""
        else "." ++ zpad 6 (microsecond (utcnow w))).
Proof.
  intros H Hd Hy.
  destruct (handler_success w event H Hd)
    as (m & b & u & ex & se & re & we & no & _ & _ & _ & _ & _ & _ & _ & _ & _ & _ &
        _ & Hmk & _).
  apply mk_workout_data_fields in Hmk as (_ & _ & Hts & Hdate & Htime).
  repeat split; auto.
  unfold isoformat, record_date, record_time.
  rewrite (zpad4_year Hy); simpl.
  repeat (rewrite str_app_assoc; simpl).
  reflexivity.
Qed.

(** The converse of [handler_success]: when every step succeeds, the
    handler answers 200 after one write and one publish. *)
Lemma handler_run_success (w : world F) (event m b user_id exercise sets reps
    weight notes d : json F) :
  get_request_method lib event = inr m -> is_str m "OPTIONS" = false ->
  is_health event = false -> parse_body lib event = inr b ->
  py_get b "userId" (JStr "anonymous") = inr user_id ->
  py_get b "exercise" JNull = inr exercise ->
  py_get b "sets" JNull = inr sets -> py_get b "reps" JNull = inr reps ->
  py_get b "weight" JNull = inr weight -> py_get b "notes" (JStr "") = inr notes ->
  truthy lib exercise = true ->
  mk_workout_data lib user_id exercise sets reps weight notes (utcnow w) = inr d ->
  s3_put_object w (put_req_of w user_id exercise d) = None ->
  sns_publish w (pub_req_of w exercise sets reps weight notes) = None ->
  lambda_handler lib w event =
    (create_response 200
       (JObj [("message", JStr "Workout logged successfully!"); ("data", d);
              ("motivation",
               JStr (random_choice (randbelow w) MOTIVATIONAL_MESSAGES))]),
     [EPut (put_req_of w user_id exercise d);
      EPublish (pub_req_of w exercise sets reps weight notes)]).
Proof.
  intros Hm Ho Hh Hb Hu He Hs Hr Hw Hn Ht Hmk Hput Hpub.
  unfold lambda_handler, handler_try, bind, lift, ret, s3_put, publish.
  rewrite Hm; simpl; rewrite Ho, Hh, Hb; simpl.
  rewrite Hu, He, Hs, Hr, Hw, Hn; simpl.
  rewrite Ht; simpl; rewrite Hmk; simpl.
  unfold put_req_of in Hput; rewrite Hput.
  unfold pub_req_of in Hpub; simpl in Hpub |- *; rewrite Hpub.
  reflexivity.
Qed.

(** A successful ingest of [event] in world [w]. *)
Definition ingests (w : world F) (event : json F) : Prop :=
  exists d, field (body (fst (lambda_handler lib w event))) "data" = Some d.

(** The motivations a successful ingest of [event] can return. *)
Definition possible_motivation (event : json F) (msg : string) : Prop :=
  exists w, ingests w event /\
    field (body (fst (lambda_handler lib w event))) "motivation" = Some (JStr msg).

Lemma random_choice_in (k : nat) :
  In (random_choice k MOTIVATIONAL_MESSAGES) MOTIVATIONAL_MESSAGES.
Proof.
  unfold random_choice; apply nth_In.
  apply Nat.mod_upper_bound; discriminate.
Qed.

Lemma possible_motivation_pool (event : json F) :
  (exists w, ingests w event) ->
  forall msg, possible_motivation event msg <-> In msg MOTIVATIONAL_MESSAGES.
Proof.
  intros [w0 [d0 Hd0]] msg; split.
  - intros [w [[d Hd] Hmsg]].
    destruct (lambda_handler lib w event) as [resp tr] eqn:H; simpl in *.
    destruct (handler_success w event H Hd) as
      (_ & _ & _ & _ & _ & _ & _ & _ & _ & _ & _ & _ & _ & _ & _ & _ & _ & _ &
       _ & _ & _ & _ & _ & Hresp).
    subst resp; simpl in Hmsg; injection Hmsg as <-.
    apply random_choice_in.
  - intros Hin.
    destruct (In_nth _ _ "" Hin) as [i [Hi Hnth]].
    destruct (lambda_handler lib w0 event) as [resp0 tr0] eqn:H0; simpl in Hd0.
    destruct (handler_success w0 event H0 Hd0) as
      (m & b & u & ex & se & re & we & no & Hm & Ho & Hh & Hb & Hu & He & Hs & Hr &
       Hw & Hn & Ht & Hmk & _ & _ & _ & _).
    set (w := ({| DATA_BUCKET_NAME := DATA_BUCKET_NAME w0;
                 SNS_TOPIC_ARN := SNS_TOPIC_ARN w0;
                 utcnow := utcnow w0;
                 s3_put_object := fun _ => None;
                 sns_publish := fun _ => None;
                 randbelow := i |} : world F)).
    assert (Hrun := handler_run_success w event Hm Ho Hh Hb Hu He Hs Hr Hw Hn Ht
                      Hmk eq_refl eq_refl).
    exists w; unfold ingests; rewrite Hrun.
    split; [eexists; reflexivity |].
    change (randbelow w) with i; unfold random_choice.
    rewrite Nat.mod_small by exact Hi.
    now rewrite Hnth.
Qed.

(** C9: the motivation of a successful ingest comes from the fixed pool
    of eight distinct messages and opens the published summary; the set
    of motivations a request can get is the same for every request that
    can be ingested, whatever its workout fields. *)
Theorem motivation_from_fixed_pool :
  List.length MOTIVATIONAL_MESSAGES = 8%nat /\ NoDup MOTIVATIONAL_MESSAGES /\
  (forall (w : world F) (event : json F) resp tr d,
     lambda_handler lib w event = (resp, tr) ->
     field (body resp) "data" = Some d ->
     exists msg put pub,
       field (body resp) "motivation" = Some (JStr msg) /\
       In msg MOTIVATIONAL_MESSAGES /\
       tr = [EPut put; EPublish pub] /\
       exists rest, pub_Message pub = nl ++ msg ++ rest) /\
  (forall event1 event2 : json F,
     (exists w, ingests w event1) -> (exists w, ingests w event2) ->
     forall msg, possible_motivation event1 msg <-> possible_motivation event2 msg).
Proof.
  split; [reflexivity |].
  split.
  { repeat constructor; simpl; intuition discriminate. }
  split.
  - intros w event resp tr d H Hd.
    destruct (handler_success w event H Hd) as
      (_ & _ & u & ex & se & re & we & no & _ & _ & _ & _ & _ & _ & _ & _ & _ & _ &
       _ & _ & _ & _ & Htr & Hresp).
    subst resp.
    do 3 eexists; split; [reflexivity |].
    split; [apply random_choice_in |].
    split; [exact Htr |].
    unfold pub_req_of, workout_summary; cbn [pub_Message].
    destruct (truthy lib no); rewrite ?str_app_assoc; eexists; reflexivity.
  - intros e1 e2 H1 H2 msg.
    rewrite (possible_motivation_pool H1), (possible_motivation_pool H2).
    reflexivity.
Qed.

(** C10, as the code has it: a falsy [sets], [reps] or [weight] (0,
    0.0, [""], [false], null, an empty list or dict) is stored as null
    and summarised as ["N/A"], exactly as when the key is absent
    ([body.get] gives [None]); a truthy value is converted, [int()] for
    [sets] and [reps], [float()] for [weight], and the converted value
    is what the record stores, so one that converts to zero, such as
    the string ["0"], is stored as 0 (or 0.0 for [weight]). *)
Theorem falsy_numeric_field_is_null (v : json F) :
  truthy lib v = false ->
  opt_int lib v = inr JNull /\ opt_float lib v = inr JNull /\
  (forall user_id exercise sets reps weight notes t msg,
     mk_workout_data lib user_id exercise v reps weight notes t =
       mk_workout_data lib user_id exercise JNull reps weight notes t /\
     mk_workout_data lib user_id exercise sets v weight notes t =
       mk_workout_data lib user_id exercise sets JNull weight notes t /\
     mk_workout_data lib user_id exercise sets reps v notes t =
       mk_workout_data lib user_id exercise sets reps JNull notes t /\
     workout_summary lib msg exercise v reps weight notes t =
       workout_summary lib msg exercise JNull reps weight notes t /\
     workout_summary lib msg exercise sets v weight notes t =
       workout_summary lib msg exercise sets JNull weight notes t /\
     workout_summary lib msg exercise sets reps v notes t =
       workout_summary lib msg exercise sets reps JNull notes t) /\
  (forall user_id exercise sets reps weight notes t d,
     mk_workout_data lib user_id exercise sets reps weight notes t = inr d ->
     (truthy lib sets = true ->
        exists z, py_int lib sets = inr z /\ field d "sets" = Some (JInt z)) /\
     (truthy lib reps = true ->
        exists z, py_int lib reps = inr z /\ field d "reps" = Some (JInt z)) /\
     (truthy lib weight = true ->
        exists f, py_float lib weight = inr f /\ field d "weight" = Some (JFloat f)) /\
     (truthy lib sets = false -> field d "sets" = Some JNull) /\
     (truthy lib reps = false -> field d "reps" = Some JNull) /\
     (truthy lib weight = false -> field d "weight" = Some JNull)).
Proof.
  intros Hv.
  assert (Hi : opt_int lib v = inr JNull) by (unfold opt_int; now rewrite Hv).
  assert (Hf : opt_float lib v = inr JNull) by (unfold opt_float; now rewrite Hv).
  assert (Ho : py_or lib v (JStr "N/A") = JStr "N/A") by (unfold py_or; now rewrite Hv).
  split; [exact Hi |]. split; [exact Hf |]. split.
  - intros; unfold mk_workout_data, workout_summary.
    rewrite Hi, Hf, Ho.
    repeat split; reflexivity.
  - intros u ex se re we no t d H.
    unfold mk_workout_data, opt_int, opt_float in H.
    destruct (truthy lib se) eqn:Es;
      [destruct (py_int lib se) as [e | zs] eqn:Zs; [discriminate |] |].
    all: destruct (truthy lib re) eqn:Er;
      [destruct (py_int lib re) as [e | zr] eqn:Zr; [discriminate |] |].
    all: destruct (truthy lib we) eqn:Ew;
      [destruct (py_float lib we) as [e | fw] eqn:Fw; [discriminate |] |].
    all: injection H as <-; cbn;
      repeat match goal with |- _ /\ _ => split end; intros; try discriminate;
      try reflexivity; eexists; split; reflexivity.
Qed.

End Proofs.

(** * Evaluations on concrete inputs *)

Definition bench_event : json Z := post_event bench_body.

Definition bench_data : json Z :=
  JObj [("userId", JStr "u1"); ("exercise", JStr "Bench Press");
        ("sets", JInt 3); ("reps", JInt 10); ("weight", JFloat 135);
        ("notes", JStr "felt strong");
        ("timestamp", JStr "2024-03-07T09:05:42.123456");
        ("date", JStr "2024-03-07"); ("time", JStr "09:05:42")].

Definition abc_kvs : list (string * json Z) :=
  [("exercise", JStr "Squat"); ("sets", JStr "abc")].

Definition abc_event : json Z := post_event (JObj abc_kvs).

Definition no_exercise_kvs : list (string * json Z) := [("userId", JStr "u1")].

Definition zero_string_event : json Z :=
  post_event (JObj [("exercise", JStr "Squat"); ("sets", JStr "0")]).

(** The record of a [weight] given as the string ["0"]. *)
Definition zero_weight_data : json Z :=
  match mk_workout_data demo_lib (JStr "u1") (JStr "Squat") JNull JNull (JStr "0") (JStr "")
          demo_time with
  | inr d => d
  | inl _ => JNull
  end.

Lemma bench_press_ingest_witness :
  get_request_method demo_lib bench_event = inr (JStr "POST") /\
  statusCode (fst (lambda_handler demo_lib (demo_world 0) bench_event)) = 200.
Proof.
  split; [reflexivity |].
  pose proof (@bench_press_ingest Z demo_lib (demo_world 0) bench_event (JStr "POST")
                bench_kvs 135 eq_refl eq_refl eq_refl eq_refl eq_refl eq_refl
                eq_refl eq_refl eq_refl eq_refl eq_refl
                (fun _ => eq_refl) (fun _ => eq_refl)) as H.
  revert H; destruct (lambda_handler demo_lib (demo_world 0) bench_event).
  intros H; exact (proj1 H).
Defined.

Lemma missing_exercise_400_witness :
  parse_body demo_lib (post_event (JObj no_exercise_kvs)) = inr (JObj no_exercise_kvs) /\
  lambda_handler demo_lib (demo_world 0) (post_event (JObj no_exercise_kvs)) =
    (create_response 400 (JObj [("error", JStr "Exercise name is required")]), []).
Proof.
  split; [reflexivity |].
  apply (@missing_exercise_400 Z demo_lib (demo_world 0) (post_event (JObj no_exercise_kvs))
           (JStr "POST") no_exercise_kvs); try reflexivity.
  left; reflexivity.
Defined.

Lemma options_preflight_witness :
  get_request_method demo_lib options_event = inr (JStr "OPTIONS") /\
  lambda_handler demo_lib (demo_world 0) options_event =
    (create_response 200 (JObj [("message", JStr "CORS preflight")]), []).
Proof.
  split; [reflexivity |].
  apply (@options_preflight Z demo_lib (demo_world 0) options_event (JStr "OPTIONS"));
    reflexivity.
Defined.

Lemma options_preflight_counterexample :
  statusCode (fst (lambda_handler demo_lib (demo_world 0) options_event)) = 200 /\
  body (fst (lambda_handler demo_lib (demo_world 0) options_event)) =
    JObj [("message", JStr "CORS preflight")] /\
  body (fst (lambda_handler demo_lib (demo_world 0) options_event)) <> JObj [].
Proof. vm_compute. split; [reflexivity | split; [reflexivity | discriminate]]. Qed.

Lemma non_numeric_sets_500_witness :
  int_of_str demo_lib "abc" =
    inl (Exn "ValueError" "invalid literal for int() with base 10: 'abc'") /\
  lambda_handler demo_lib (demo_world 0) abc_event =
    (create_response 500
       (JObj [("error", JStr "Failed to log workout");
              ("details", JStr "invalid literal for int() with base 10: 'abc'")]), []).
Proof.
  split; [reflexivity |].
  apply (@non_numeric_sets_500 Z demo_lib (demo_world 0) abc_event (JStr "POST")
           (JStr "Squat") abc_kvs "abc"
           (Exn "ValueError" "invalid literal for int() with base 10: 'abc'"));
    try reflexivity; discriminate.
Defined.

Lemma storage_key_and_metadata_witness :
  field (body (fst (lambda_handler demo_lib (demo_world 0) bench_event))) "data" =
    Some bench_data /\
  exists user_id exercise pub,
    field bench_data "userId" = Some user_id /\
    snd (lambda_handler demo_lib (demo_world 0) bench_event) =
      [EPut {| put_Bucket := Some "fitlog-data";
               put_Key := py_str demo_lib user_id ++ "/" ++ strftime demo_time "%Y/%m"
                          ++ "/" ++ record_date demo_time ++ "_"
                          ++ strftime demo_time "%H-%M-%S" ++ ".json";
               put_Body := bench_data;
               put_ContentType := "application/json";
               put_Metadata := [("user-id", user_id); ("exercise", exercise);
                                ("date", JStr (record_date demo_time))] |};
       EPublish pub].
Proof.
  split; [vm_compute; reflexivity |].
  destruct (@storage_key_and_metadata Z demo_lib (demo_world 0) bench_event
              (fst (lambda_handler demo_lib (demo_world 0) bench_event))
              (snd (lambda_handler demo_lib (demo_world 0) bench_event))
              bench_data (surjective_pairing _) ltac:(vm_compute; reflexivity))
    as (u & ex & pub & Hu & _ & _ & Htr).
  exists u, ex, pub; split; [exact Hu | exact Htr].
Defined.

Lemma storage_key_counterexample :
  field bench_data "date" = Some (JStr "2024-03-07") /\
  field bench_data "time" = Some (JStr "09:05:42") /\
  field (body (fst (lambda_handler demo_lib (demo_world 0) bench_event))) "data" =
    Some bench_data /\
  match snd (lambda_handler demo_lib (demo_world 0) bench_event) with
  | EPut p :: _ =>
      put_Key p = "u1/2024/03/2024-03-07_09-05-42.json" /\
      put_Key p <> "u1" ++ "/" ++ "2024" ++ "/" ++ "03" ++ "/" ++ "2024-03-07"
                   ++ "_" ++ "09:05:42" ++ ".json"
  | _ => False
  end.
Proof.
  vm_compute.
  split; [reflexivity |]. split; [reflexivity |]. split; [reflexivity |].
  split; [reflexivity | discriminate].
Qed.

Lemma record_fields_one_instant_witness :
  1000 <= year (utcnow (demo_world 0)) /\
  isoformat demo_time =
    record_date demo_time ++ "T" ++ record_time demo_time ++ "." ++ zpad 6 123456.
Proof.
  split; [vm_compute; discriminate |].
  destruct (@record_fields_one_instant Z demo_lib (demo_world 0) bench_event
              (fst (lambda_handler demo_lib (demo_world 0) bench_event))
              (snd (lambda_handler demo_lib (demo_world 0) bench_event))
              bench_data (surjective_pairing _) ltac:(vm_compute; reflexivity)
              ltac:(vm_compute; discriminate))
    as (_ & _ & _ & Hiso).
  exact Hiso.
Defined.

Lemma falsy_numeric_field_is_null_witness :
  truthy demo_lib (JInt 0) = false /\
  opt_int demo_lib (JInt 0) = inr JNull /\ opt_float demo_lib (JInt 0) = inr JNull /\
  exists f, py_float demo_lib (JStr "0") = inr f /\
    field zero_weight_data "weight" = Some (JFloat f).
Proof.
  split; [reflexivity |].
  destruct (@falsy_numeric_field_is_null Z demo_lib (JInt 0) eq_refl) as (Hi & Hf & _ & Hd).
  split; [exact Hi |]. split; [exact Hf |].
  destruct (Hd (JStr "u1") (JStr "Squat") JNull JNull (JStr "0") (JStr "") demo_time
              zero_weight_data ltac:(vm_compute; reflexivity)) as (_ & _ & Hw & _).
  exact (Hw eq_refl).
Defined.

Lemma zero_string_stored_counterexample :
  match field (body (fst (lambda_handler demo_lib (demo_world 0) zero_string_event)))
          "data" with
  | Some d => field d "sets" = Some (JInt 0)
  | None => False
  end.
Proof. vm_compute; reflexivity. Qed.

(** * Further properties of [lambda_handler] *)

Section Extras.
Context {F : Type} (lib : pylib F).

(** [d.get(k, default)] on a [dict]. *)
Definition get_or (kvs : list (string * json F)) (k : string) (default : json F) : json F :=
  match lookup k kvs with Some v => v | None => default end.

Lemma py_get_dict kvs k (default : json F) :
  py_get (JObj kvs) k default = inr (get_or kvs k default).
Proof. unfold py_get, get_or; now destruct (lookup k kvs). Qed.

(** The response the [except] clause builds for [e]. *)
Definition error_response (e : exn) : response F :=
  create_response 500 (JObj [("error", JStr "Failed to log workout");
                             ("details", JStr (exn_str e))]).

Ltac run_handler :=
  unfold lambda_handler, handler_try, bind, lift, ret, raise, s3_put, publish;
  repeat first [ match goal with
                 | H : ?x = _ |- context [?x] => rewrite H
                 end
               | rewrite py_get_dict
               | progress cbn -[get_request_method is_health parse_body py_get
                                 mk_workout_data truthy get_or file_key
                                 record_date workout_summary random_choice
                                 py_str] ];
  try reflexivity.

(** A request routed to the health check ([rawPath] or [path] equal to
    ["/health"], method not [OPTIONS]) gets status 200 with the healthy
    payload, whatever its body, and no client is called. *)
Theorem health_check_200 (w : world F) (kvs : list (string * json F)) (m : json F) :
  get_request_method lib (JObj kvs) = inr m -> is_str m "OPTIONS" = false ->
  (lookup "rawPath" kvs = Some (JStr "/health") \/
   lookup "path" kvs = Some (JStr "/health")) ->
  lambda_handler lib w (JObj kvs) =
    (create_response 200 (JObj [("status", JStr "healthy");
                                ("message", JStr "Lambda is running")]), []).
Proof.
  intros Hm Ho Hp.
  assert (Hh : is_health (JObj kvs) = true).
  { unfold is_health, health_key.
    destruct Hp as [Hp | Hp]; rewrite Hp; [reflexivity | apply Bool.orb_true_r]. }
  run_handler.
Qed.

(** An event that is not a JSON object has no [.get]: line 37 raises
    [AttributeError], the response is a 500 naming the event's type,
    and no client is called. *)
Theorem non_dict_event_500 (w : world F) (event : json F) :
  (forall kvs, event <> JObj kvs) ->
  lambda_handler lib w event =
    (error_response (Exn "AttributeError"
       ("'" ++ type_name event ++ "' object has no attribute 'get'")), []).
Proof.
  intros Hn.
  destruct event; try reflexivity; exfalso; eapply Hn; reflexivity.
Qed.

(** Method selection on line 37: a non-empty
    [requestContext.http.method] string wins; with no [requestContext],
    or one without [http], the method is [httpMethod], so an API
    Gateway REST or ALB preflight ([httpMethod = "OPTIONS"]) gets the
    200 preflight response with no client call. *)
Theorem request_method_selection (w : world F) (kvs : list (string * json F)) :
  (forall rc h s,
     lookup "requestContext" kvs = Some (JObj rc) ->
     lookup "http" rc = Some (JObj h) -> lookup "method" h = Some (JStr s) ->
     s <> "" -> get_request_method lib (JObj kvs) = inr (JStr s)) /\
  ((lookup "requestContext" kvs = None \/
    exists rc, lookup "requestContext" kvs = Some (JObj rc) /\ lookup "http" rc = None) ->
   lookup "httpMethod" kvs = Some (JStr "OPTIONS") ->
   lambda_handler lib w (JObj kvs) =
     (create_response 200 (JObj [("message", JStr "CORS preflight")]), [])).
Proof.
  split.
  - intros rc h s Hrc Hh Hs Hne.
    unfold get_request_method; simpl.
    rewrite Hrc; simpl; rewrite Hh; simpl; rewrite Hs; simpl.
    apply String.eqb_neq in Hne; now rewrite Hne.
  - intros Hrc Hhm.
    apply (@options_preflight F lib w (JObj kvs) (JStr "OPTIONS")); [| reflexivity].
    unfold get_request_method; simpl.
    destruct Hrc as [Hrc | [rc [Hrc Hh]]]; rewrite Hrc; simpl;
      [| rewrite Hh]; simpl; now rewrite Hhm.
Qed.

(** A raw string body that [json.loads] rejects makes the request fail
    with status 500 carrying the decoder's message; no client is called. *)
Theorem undecodable_body_500 (w : world F) (kvs : list (string * json F))
    (m : json F) (raw : string) (e : exn) :
  get_request_method lib (JObj kvs) = inr m -> is_str m "OPTIONS" = false ->
  is_health (JObj kvs) = false ->
  lookup "body" kvs = Some (JStr raw) -> json_loads lib raw = inl e ->
  lambda_handler lib w (JObj kvs) = (error_response e, []).
Proof.
  intros Hm Ho Hh Hb Hj.
  assert (Hp : parse_body lib (JObj kvs) = inl e)
    by (unfold parse_body; now rewrite Hb).
  run_handler.
Qed.

(** A body that decodes to something other than an object (a JSON
    [null] body, as API Gateway sends for a GET, a list, a number) has
    no [.get]: status 500 with [AttributeError], never the 400 of a
    missing exercise, and no client is called. *)
Theorem non_dict_body_500 (w : world F) (event m b : json F) :
  get_request_method lib event = inr m -> is_str m "OPTIONS" = false ->
  is_health event = false -> parse_body lib event = inr b ->
  (forall kvs, b <> JObj kvs) ->
  lambda_handler lib w event =
    (error_response (Exn "AttributeError"
       ("'" ++ type_name b ++ "' object has no attribute 'get'")), []).
Proof.
  intros Hm Ho Hh Hb Hn.
  run_handler.
  destruct b; try reflexivity; exfalso; eapply Hn; reflexivity.
Qed.

(** Validation is Python truthiness: every falsy [exercise] (absent,
    null, [""], [0], [false], [[]], [{}]) gets the 400 with no client
    call. *)
Theorem falsy_exercise_400 (w : world F) (event m : json F)
    (kvs : list (string * json F)) :
  get_request_method lib event = inr m -> is_str m "OPTIONS" = false ->
  is_health event = false -> parse_body lib event = inr (JObj kvs) ->
  truthy lib (get_or kvs "exercise" JNull) = false ->
  lambda_handler lib w event =
    (create_response 400 (JObj [("error", JStr "Exercise name is required")]), []).
Proof.
  intros Hm Ho Hh Hb Ht.
  run_handler.
Qed.

(** A truthy [exercise] whose [sets], [reps] or [weight] cannot be
    converted (lines 70-72) makes the request fail with status 500
    carrying the conversion's message, before the storage write: no
    client is called. *)
Theorem conversion_failure_500 (w : world F) (event m : json F)
    (kvs : list (string * json F)) (e : exn) :
  get_request_method lib event = inr m -> is_str m "OPTIONS" = false ->
  is_health event = false -> parse_body lib event = inr (JObj kvs) ->
  truthy lib (get_or kvs "exercise" JNull) = true ->
  mk_workout_data lib (get_or kvs "userId" (JStr "anonymous"))
    (get_or kvs "exercise" JNull) (get_or kvs "sets" JNull) (get_or kvs "reps" JNull)
    (get_or kvs "weight" JNull) (get_or kvs "notes" (JStr "")) (utcnow w) = inl e ->
  lambda_handler lib w event = (error_response e, []).
Proof.
  intros Hm Ho Hh Hb Ht Hmk.
  run_handler.
Qed.

(** When the storage write raises, the request fails with status 500
    carrying the client's message, after exactly one write attempt and
    with no notification published. *)
Theorem storage_failure_no_publish (w : world F) (event m : json F)
    (kvs : list (string * json F)) (d : json F) (e : exn) :
  get_request_method lib event = inr m -> is_str m "OPTIONS" = false ->
  is_health event = false -> parse_body lib event = inr (JObj kvs) ->
  truthy lib (get_or kvs "exercise" JNull) = true ->
  mk_workout_data lib (get_or kvs "userId" (JStr "anonymous"))
    (get_or kvs "exercise" JNull) (get_or kvs "sets" JNull) (get_or kvs "reps" JNull)
    (get_or kvs "weight" JNull) (get_or kvs "notes" (JStr "")) (utcnow w) = inr d ->
  s3_put_object w (put_req_of lib w (get_or kvs "userId" (JStr "anonymous"))
                     (get_or kvs "exercise" JNull) d) = Some e ->
  lambda_handler lib w event =
    (error_response e, [EPut (put_req_of lib w (get_or kvs "userId" (JStr "anonymous"))
                                (get_or kvs "exercise" JNull) d)]).
Proof.
  intros Hm Ho Hh Hb Ht Hmk Hput.
  unfold put_req_of in Hput |- *.
  run_handler.
Qed.

(** When the record is stored but the notification fails, the client
    still gets status 500 with the publisher's message: the workout is
    in the bucket although the response reports a failure. *)
Theorem publish_failure_after_write (w : world F) (event m : json F)
    (kvs : list (string * json F)) (d : json F) (e : exn) :
  get_request_method lib event = inr m -> is_str m "OPTIONS" = false ->
  is_health event = false -> parse_body lib event = inr (JObj kvs) ->
  truthy lib (get_or kvs "exercise" JNull) = true ->
  mk_workout_data lib (get_or kvs "userId" (JStr "anonymous"))
    (get_or kvs "exercise" JNull) (get_or kvs "sets" JNull) (get_or kvs "reps" JNull)
    (get_or kvs "weight" JNull) (get_or kvs "notes" (JStr "")) (utcnow w) = inr d ->
  s3_put_object w (put_req_of lib w (get_or kvs "userId" (JStr "anonymous"))
                     (get_or kvs "exercise" JNull) d) = None ->
  sns_publish w (pub_req_of lib w (get_or kvs "exercise" JNull) (get_or kvs "sets" JNull)
                   (get_or kvs "reps" JNull) (get_or kvs "weight" JNull)
                   (get_or kvs "notes" (JStr ""))) = Some e ->
  lambda_handler lib w event =
    (error_response e,
     [EPut (put_req_of lib w (get_or kvs "userId" (JStr "anonymous"))
              (get_or kvs "exercise" JNull) d);
      EPublish (pub_req_of lib w (get_or kvs "exercise" JNull) (get_or kvs "sets" JNull)
                  (get_or kvs "reps" JNull) (get_or kvs "weight" JNull)
                  (get_or kvs "notes" (JStr "")))]).
Proof.
  intros Hm Ho Hh Hb Ht Hmk Hput Hpub.
  unfold put_req_of in Hput |- *; unfold pub_req_of in Hpub |- *.
  run_handler.
Qed.

Ltac disj := first [ reflexivity | left; disj | right; disj | eexists; disj ].

(** Whatever the event and the world: the status is 200, 400 or 500;
    the calls made are none, one storage write, or one write followed by
    one publish (never a publish without a write, never two writes); a
    400 makes no call; a 200 is either a call-free answer or a run with
    both calls; and a run that stopped after the write is a 500. *)
Theorem outcome_shape (w : world F) (event : json F) :
  let (resp, tr) := lambda_handler lib w event in
  (statusCode resp = 200 \/ statusCode resp = 400 \/ statusCode resp = 500) /\
  (tr = [] \/ (exists p, tr = [EPut p]) \/ (exists p q, tr = [EPut p; EPublish q])) /\
  (statusCode resp = 400 -> tr = []) /\
  (statusCode resp = 200 -> tr = [] \/ exists p q, tr = [EPut p; EPublish q]) /\
  (forall p, tr = [EPut p] -> statusCode resp = 500).
Proof.
  unfold lambda_handler, handler_try, bind, lift, ret, raise, s3_put, publish.
  repeat (cbn -[get_request_method is_str is_health parse_body py_get truthy
                mk_workout_data file_key record_date workout_summary random_choice
                py_str];
    match goal with
    | |- context [match ?x with _ => _ end] =>
        lazymatch x with
        | context [match _ with _ => _ end] => fail
        | _ => destruct x
        end
    end).
  all: cbn; repeat split; try (intros ? H; discriminate);
    try (intros; discriminate); try (intros; reflexivity); try (intros; disj); disj.
Qed.

(** On success, the object written to the bucket is the very record
    returned to the client as [data], stored as JSON in
    [DATA_BUCKET_NAME]; the notification goes to [SNS_TOPIC_ARN] with
    the subject naming the record's exercise. *)
Theorem stored_record_is_returned (w : world F) (event : json F) resp tr d :
  lambda_handler lib w event = (resp, tr) -> field (body resp) "data" = Some d ->
  exists exercise put pub,
    tr = [EPut put; EPublish pub] /\ field d "exercise" = Some exercise /\
    put_Body put = d /\ put_Bucket put = DATA_BUCKET_NAME w /\
    put_ContentType put = "application/json" /\
    pub_TopicArn pub = SNS_TOPIC_ARN w /\
    pub_Subject pub = "FitLog: Workout Logged - " ++ py_str lib exercise.
Proof.
  intros H Hd.
  destruct (handler_success lib w event H Hd)
    as (m & b & u & ex & se & re & we & no & _ & _ & _ & _ & _ & _ & _ & _ & _ & _ &
        _ & Hmk & _ & _ & Htr & _).
  apply mk_workout_data_fields in Hmk as (_ & He & _).
  exists ex, (put_req_of lib w u ex d), (pub_req_of lib w ex se re we no).
  repeat split; assumption.
Qed.

Lemma mk_workout_data_notes user_id exercise sets reps weight notes t d :
  mk_workout_data lib user_id exercise sets reps weight notes t = inr d ->
  field d "notes" = Some notes.
Proof.
  unfold mk_workout_data.
  destruct (opt_int lib sets), (opt_int lib reps), (opt_float lib weight);
    intros H; try discriminate.
  now injection H as <-.
Qed.

(** Defaults of lines 54 and 59, each on its own: on success, a body
    without [userId] is stored under the user ["anonymous"], its key
    starting with ["anonymous/"]; a body without [notes] is stored with
    empty notes. *)
Theorem absent_user_and_notes_defaults (w : world F) (event : json F)
    (kvs : list (string * json F)) resp tr d :
  parse_body lib event = inr (JObj kvs) ->
  lambda_handler lib w event = (resp, tr) -> field (body resp) "data" = Some d ->
  (lookup "userId" kvs = None ->
   field d "userId" = Some (JStr "anonymous") /\
   exists put pub rest, tr = [EPut put; EPublish pub] /\
     put_Key put = "anonymous/" ++ rest) /\
  (lookup "notes" kvs = None -> field d "notes" = Some (JStr "")).
Proof.
  intros Hb H Hd.
  destruct (handler_success lib w event H Hd)
    as (m & b & u & ex & se & re & we & no & _ & _ & _ & Hb' & Hgu & _ & _ & _ & _ &
        Hgn & _ & Hmk & _ & _ & Htr & _).
  rewrite Hb in Hb'; injection Hb' as <-.
  rewrite py_get_dict in Hgu, Hgn; unfold get_or in Hgu, Hgn.
  split.
  - intros Hu; rewrite Hu in Hgu; injection Hgu as <-.
    apply mk_workout_data_fields in Hmk as (Hus & _).
    split; [exact Hus |].
    do 3 eexists; split; [exact Htr |].
    reflexivity.
  - intros Hn; rewrite Hn in Hgn; injection Hgn as <-.
    eapply mk_workout_data_notes; exact Hmk.
Qed.

Definition ends_with (s suf : string) : Prop := exists pre, s = pre ++ suf.

Lemma ends_with_refl (s : string) : ends_with s s.
Proof. now exists ""%string. Qed.

Lemma ends_with_app (a s suf : string) : ends_with s suf -> ends_with (a ++ s) suf.
Proof. intros [pre ->]; exists (a ++ pre); now rewrite str_app_assoc. Qed.

(** Lines 99-114: the published summary ends with the [Time:] line when
    the notes are falsy; otherwise that line is followed by a blank line
    and [Notes: {notes}], with no newline after the notes. *)
Theorem summary_ends_with_notes (w : world F) (event : json F) resp tr d :
  lambda_handler lib w event = (resp, tr) -> field (body resp) "data" = Some d ->
  exists notes put pub,
    field d "notes" = Some notes /\ tr = [EPut put; EPublish pub] /\
    (truthy lib notes = false ->
       ends_with (pub_Message pub) ("Time: " ++ record_time (utcnow w) ++ nl)) /\
    (truthy lib notes = true ->
       ends_with (pub_Message pub)
         ("Time: " ++ record_time (utcnow w) ++ nl ++ nl ++ "Notes: " ++ py_str lib notes)).
Proof.
  intros H Hd.
  destruct (handler_success lib w event H Hd)
    as (m & b & u & ex & se & re & we & no & _ & _ & _ & _ & _ & _ & _ & _ & _ & _ &
        _ & Hmk & _ & _ & Htr & _).
  exists no, (put_req_of lib w u ex d), (pub_req_of lib w ex se re we no).
  split; [eapply mk_workout_data_notes; exact Hmk |]. split; [exact Htr |].
  unfold pub_req_of, workout_summary; cbn [pub_Message].
  split; intros Hn; rewrite Hn; cbv beta iota zeta; rewrite ?str_app_assoc;
    repeat (first [apply ends_with_refl | apply ends_with_app]).
Qed.

(** [datetime] readings that differ at most in the microseconds. *)
Definition same_second (t1 t2 : datetime) : Prop :=
  year t1 = year t2 /\ month t1 = month t2 /\ day t1 = day t2 /\
  hour t1 = hour t2 /\ minute t1 = minute t2 /\ second t1 = second t2.

Lemma file_key_same_second (u : json F) (t1 t2 : datetime) :
  same_second t1 t2 -> file_key lib u t1 = file_key lib u t2.
Proof.
  destruct t1, t2; unfold same_second; cbn.
  intros (-> & -> & -> & -> & -> & ->); reflexivity.
Qed.

(** The key has one-second resolution: two successful ingests for the
    same user, in the same bucket, within the same second write to the
    same object, so the later one replaces the earlier (the bucket keeps
    it only as an older version). *)
Theorem same_second_same_key (w1 w2 : world F) (e1 e2 : json F) r1 tr1 d1 r2 tr2 d2 :
  lambda_handler lib w1 e1 = (r1, tr1) -> field (body r1) "data" = Some d1 ->
  lambda_handler lib w2 e2 = (r2, tr2) -> field (body r2) "data" = Some d2 ->
  field d1 "userId" = field d2 "userId" ->
  DATA_BUCKET_NAME w1 = DATA_BUCKET_NAME w2 ->
  same_second (utcnow w1) (utcnow w2) ->
  exists p1 q1 p2 q2,
    tr1 = [EPut p1; EPublish q1] /\ tr2 = [EPut p2; EPublish q2] /\
    put_Bucket p1 = put_Bucket p2 /\ put_Key p1 = put_Key p2.
Proof.
  intros H1 Hd1 H2 Hd2 Hu Hbk Hs.
  destruct (handler_success lib w1 e1 H1 Hd1)
    as (_ & _ & u1 & x1 & s1 & c1 & g1 & n1 & _ & _ & _ & _ & _ & _ & _ & _ & _ & _ &
        _ & Hmk1 & _ & _ & Htr1 & _).
  destruct (handler_success lib w2 e2 H2 Hd2)
    as (_ & _ & u2 & x2 & s2 & c2 & g2 & n2 & _ & _ & _ & _ & _ & _ & _ & _ & _ & _ &
        _ & Hmk2 & _ & _ & Htr2 & _).
  apply mk_workout_data_fields in Hmk1 as (Hu1 & _).
  apply mk_workout_data_fields in Hmk2 as (Hu2 & _).
  rewrite Hu1, Hu2 in Hu; injection Hu as <-.
  do 4 eexists; split; [exact Htr1 |]; split; [exact Htr2 |].
  split; cbn; [exact Hbk | apply file_key_same_second; exact Hs].
Qed.

(** [lambda_handler] reads the event only through the request method,
    the health-check paths and the parsed body. *)
Lemma lambda_handler_congr (w : world F) (e1 e2 : json F) :
  get_request_method lib e1 = get_request_method lib e2 ->
  is_health e1 = is_health e2 -> parse_body lib e1 = parse_body lib e2 ->
  lambda_handler lib w e1 = lambda_handler lib w e2.
Proof.
  intros H1 H2 H3; unfold lambda_handler, handler_try.
  rewrite H1, H2, H3; reflexivity.
Qed.

(** Line 51: an event with no [body] key is its own body, so it is
    handled exactly as the same event carrying itself as a [dict] body. *)
Theorem bodiless_event_is_its_body (w : world F) (kvs : list (string * json F)) :
  lookup "body" kvs = None ->
  lambda_handler lib w (JObj kvs) = lambda_handler lib w (JObj (("body", JObj kvs) :: kvs)).
Proof.
  intros Hb; apply lambda_handler_congr.
  - reflexivity.
  - reflexivity.
  - unfold parse_body; cbn; now rewrite Hb.
Qed.

(** [d[k] = v] on a [dict]: the value of an existing key is replaced
    in place, a new key is added at the end. *)
Fixpoint dict_set (k : string) (v : json F) (kvs : list (string * json F))
    : list (string * json F) :=
  match kvs with
  | [] => [(k, v)]
  | (k', v') :: rest =>
      if String.eqb k k' then (k', v) :: rest else (k', v') :: dict_set k v rest
  end.

Lemma lookup_dict_set_eq (k : string) (v : json F) kvs :
  lookup k (dict_set k v kvs) = Some v.
Proof.
  induction kvs as [| [k' v'] rest IH]; cbn.
  - now rewrite String.eqb_refl.
  - destruct (String.eqb k k') eqn:E; cbn; rewrite E; [reflexivity | exact IH].
Qed.

Lemma lookup_dict_set_ne (k k0 : string) (v : json F) kvs :
  k0 <> k -> lookup k0 (dict_set k v kvs) = lookup k0 kvs.
Proof.
  intros Hne; apply String.eqb_neq in Hne.
  induction kvs as [| [k' v'] rest IH]; cbn.
  - now rewrite Hne.
  - destruct (String.eqb k k') eqn:E; cbn.
    + apply String.eqb_eq in E; subst k'; now rewrite Hne.
    + now rewrite IH.
Qed.

(** Line 49: a string body is decoded first, so the event is handled
    exactly as the event whose [body] is replaced by the decoded value
    (when that is not itself a string). *)
Theorem string_body_is_decoded (w : world F) (kvs : list (string * json F))
    (raw : string) (b : json F) :
  lookup "body" kvs = Some (JStr raw) -> json_loads lib raw = inr b ->
  (forall s, b <> JStr s) ->
  lambda_handler lib w (JObj kvs) = lambda_handler lib w (JObj (dict_set "body" b kvs)).
Proof.
  intros Hb Hj Hs; apply lambda_handler_congr.
  - unfold get_request_method, py_get.
    rewrite !(@lookup_dict_set_ne "body") by discriminate; reflexivity.
  - unfold is_health, health_key.
    rewrite !(@lookup_dict_set_ne "body") by discriminate; reflexivity.
  - unfold parse_body; rewrite Hb, Hj, lookup_dict_set_eq.
    destruct b; try reflexivity; exfalso; eapply Hs; reflexivity.
Qed.

(** C7: every exception raised in the [try] block reaches the [except]
    clause of lines 130-138, which answers status 500 with the generic
    error and [str(e)] as details, keeping the calls already made:
    [event.get] on a non-object event (line 37), [json.loads] (line 49),
    [body.get] on a non-object body (line 54), the conversions of lines
    70-72, the storage write (line 84) and the publish (line 117).
    Conversely a 500 is only ever such a raised exception: the [try]
    block itself returns only 200 or 400.  Nothing escapes: line 33,
    outside the [try], is [json.dumps] of the event Lambda decoded from
    JSON, which raises on no such value. *)
Theorem exception_becomes_500 (w : world F) (event : json F) :
  (forall tr e, handler_try lib w event [] = (tr, inl e) ->
     lambda_handler lib w event = (error_response e, tr)) /\
  (forall resp tr, lambda_handler lib w event = (resp, tr) -> statusCode resp = 500 ->
     exists e, handler_try lib w event [] = (tr, inl e) /\ resp = error_response e) /\
  (forall e, get_request_method lib event = inl e ->
     lambda_handler lib w event = (error_response e, [])) /\
  (forall m e, get_request_method lib event = inr m -> is_str m "OPTIONS" = false ->
     is_health event = false -> parse_body lib event = inl e ->
     lambda_handler lib w event = (error_response e, [])) /\
  (forall m b e, get_request_method lib event = inr m -> is_str m "OPTIONS" = false ->
     is_health event = false -> parse_body lib event = inr b ->
     py_get b "userId" (JStr "anonymous") = inl e ->
     lambda_handler lib w event = (error_response e, [])) /\
  (forall m kvs e, get_request_method lib event = inr m -> is_str m "OPTIONS" = false ->
     is_health event = false -> parse_body lib event = inr (JObj kvs) ->
     truthy lib (get_or kvs "exercise" JNull) = true ->
     mk_workout_data lib (get_or kvs "userId" (JStr "anonymous"))
       (get_or kvs "exercise" JNull) (get_or kvs "sets" JNull) (get_or kvs "reps" JNull)
       (get_or kvs "weight" JNull) (get_or kvs "notes" (JStr "")) (utcnow w) = inl e ->
     lambda_handler lib w event = (error_response e, [])) /\
  (forall m kvs d e, get_request_method lib event = inr m -> is_str m "OPTIONS" = false ->
     is_health event = false -> parse_body lib event = inr (JObj kvs) ->
     truthy lib (get_or kvs "exercise" JNull) = true ->
     mk_workout_data lib (get_or kvs "userId" (JStr "anonymous"))
       (get_or kvs "exercise" JNull) (get_or kvs "sets" JNull) (get_or kvs "reps" JNull)
       (get_or kvs "weight" JNull) (get_or kvs "notes" (JStr "")) (utcnow w) = inr d ->
     s3_put_object w (put_req_of lib w (get_or kvs "userId" (JStr "anonymous"))
                        (get_or kvs "exercise" JNull) d) = Some e ->
     lambda_handler lib w event =
       (error_response e, [EPut (put_req_of lib w (get_or kvs "userId" (JStr "anonymous"))
                                   (get_or kvs "exercise" JNull) d)])) /\
  (forall m kvs d e, get_request_method lib event = inr m -> is_str m "OPTIONS" = false ->
     is_health event = false -> parse_body lib event = inr (JObj kvs) ->
     truthy lib (get_or kvs "exercise" JNull) = true ->
     mk_workout_data lib (get_or kvs "userId" (JStr "anonymous"))
       (get_or kvs "exercise" JNull) (get_or kvs "sets" JNull) (get_or kvs "reps" JNull)
       (get_or kvs "weight" JNull) (get_or kvs "notes" (JStr "")) (utcnow w) = inr d ->
     s3_put_object w (put_req_of lib w (get_or kvs "userId" (JStr "anonymous"))
                        (get_or kvs "exercise" JNull) d) = None ->
     sns_publish w (pub_req_of lib w (get_or kvs "exercise" JNull) (get_or kvs "sets" JNull)
                      (get_or kvs "reps" JNull) (get_or kvs "weight" JNull)
                      (get_or kvs "notes" (JStr ""))) = Some e ->
     lambda_handler lib w event =
       (error_response e,
        [EPut (put_req_of lib w (get_or kvs "userId" (JStr "anonymous"))
                 (get_or kvs "exercise" JNull) d);
         EPublish (pub_req_of lib w (get_or kvs "exercise" JNull) (get_or kvs "sets" JNull)
                     (get_or kvs "reps" JNull) (get_or kvs "weight" JNull)
                     (get_or kvs "notes" (JStr "")))])).
Proof.
  split; [| split; [| split; [| split; [| split; [| split; [| split]]]]]].
  - intros tr e H; unfold lambda_handler; now rewrite H.
  - intros resp tr H H500; unfold lambda_handler in H.
    pose proof (handler_try_status lib w event []) as Hs.
    destruct (handler_try lib w event []) as [tr' [e | r]]; cbn in Hs;
      injection H as <- <-.
    + now exists e.
    + rewrite H500 in Hs; destruct Hs; discriminate.
  - intros e Hm; run_handler.
  - intros m e Hm Ho Hh Hb; run_handler.
  - intros m b e Hm Ho Hh Hb Hu; run_handler.
  - intros m kvs e Hm Ho Hh Hb Ht Hmk; run_handler.
  - intros m kvs d e Hm Ho Hh Hb Ht Hmk Hput.
    unfold put_req_of in Hput |- *; run_handler.
  - intros m kvs d e Hm Ho Hh Hb Ht Hmk Hput Hpub.
    unfold put_req_of in Hput |- *; unfold pub_req_of in Hpub |- *; run_handler.
Qed.

End Extras.

(** ** Further evaluations *)

(** A world whose client calls return or raise as given. *)
Definition failing_world (put_err pub_err : option exn) : world Z := {|
  DATA_BUCKET_NAME := Some "fitlog-data";
  SNS_TOPIC_ARN := Some "arn:aws:sns:us-east-1:0123456789:fitlog";
  utcnow := demo_time;
  s3_put_object := fun _ => put_err;
  sns_publish := fun _ => pub_err;
  randbelow := 0
|}.

Definition access_denied : exn :=
  Exn "ClientError" "An error occurred (AccessDenied): Access Denied".

(** The same second as [demo_time], other microseconds. *)
Definition later_world : world Z := {|
  DATA_BUCKET_NAME := Some "fitlog-data";
  SNS_TOPIC_ARN := Some "arn:aws:sns:us-east-1:0123456789:fitlog";
  utcnow := {| year := 2024; month := 3; day := 7; hour := 9; minute := 5;
               second := 42; microsecond := 987654 |};
  s3_put_object := fun _ => None;
  sns_publish := fun _ => None;
  randbelow := 3
|}.

(** [json.loads] that decodes the text ["{}"]. *)
Definition json_lib : pylib Z := {|
  float_of_int := float_of_int demo_lib;
  float_of_str := float_of_str demo_lib;
  int_of_float := int_of_float demo_lib;
  float_truthy := float_truthy demo_lib;
  float_str := float_str demo_lib;
  int_of_str := int_of_str demo_lib;
  json_loads := fun s => if String.eqb s "{}" then inr (JObj []) else json_loads demo_lib s
|}.

(** The [data] of a response, [null] when it has none. *)
Definition data_of (w : world Z) (event : json Z) : json Z :=
  match field (body (fst (lambda_handler demo_lib w event))) "data" with
  | Some d => d
  | None => JNull
  end.

Definition health_kvs : list (string * json Z) := [("rawPath", JStr "/health")].
Definition squat_kvs : list (string * json Z) := [("exercise", JStr "Squat")].
Definition squat_event : json Z := post_event (JObj squat_kvs).
Definition same_user_event : json Z :=
  post_event (JObj [("userId", JStr "u1"); ("exercise", JStr "Deadlift")]).

Lemma health_check_200_witness :
  lambda_handler demo_lib (demo_world 0) (JObj health_kvs) =
    (create_response 200 (JObj [("status", JStr "healthy");
                                ("message", JStr "Lambda is running")]), []).
Proof.
  apply (@health_check_200 Z demo_lib (demo_world 0) health_kvs JNull);
    [reflexivity | reflexivity | left; reflexivity].
Defined.

Lemma non_dict_event_500_witness :
  lambda_handler demo_lib (demo_world 0) (JList []) =
    (error_response (Exn "AttributeError" "'list' object has no attribute 'get'"), []).
Proof.
  apply (@non_dict_event_500 Z demo_lib (demo_world 0) (JList [])).
  intros kvs H; discriminate.
Defined.

Lemma undecodable_body_500_witness :
  lambda_handler demo_lib (demo_world 0) (JObj [("body", JStr "{oops")]) =
    (error_response (Exn "JSONDecodeError" "Expecting value: line 1 column 1 (char 0)"), []).
Proof.
  apply (@undecodable_body_500 Z demo_lib (demo_world 0) [("body", JStr "{oops")] JNull
           "{oops"); reflexivity.
Defined.

Lemma non_dict_body_500_witness :
  lambda_handler demo_lib (demo_world 0) (JObj [("body", JNull)]) =
    (error_response (Exn "AttributeError" "'NoneType' object has no attribute 'get'"), []).
Proof.
  apply (@non_dict_body_500 Z demo_lib (demo_world 0) (JObj [("body", JNull)]) JNull JNull);
    try reflexivity.
  intros kvs H; discriminate.
Defined.

Lemma falsy_exercise_400_witness :
  lambda_handler demo_lib (demo_world 0) (post_event (JObj [("exercise", JStr "")])) =
    (create_response 400 (JObj [("error", JStr "Exercise name is required")]), []).
Proof.
  apply (@falsy_exercise_400 Z demo_lib (demo_world 0)
           (post_event (JObj [("exercise", JStr "")])) (JStr "POST")
           [("exercise", JStr "")]); reflexivity.
Defined.

Lemma conversion_failure_500_witness :
  lambda_handler demo_lib (demo_world 0) abc_event =
    (error_response (Exn "ValueError" "invalid literal for int() with base 10: 'abc'"), []).
Proof.
  apply (@conversion_failure_500 Z demo_lib (demo_world 0) abc_event (JStr "POST") abc_kvs);
    vm_compute; reflexivity.
Defined.

Lemma storage_failure_no_publish_witness :
  lambda_handler demo_lib (failing_world (Some access_denied) None) bench_event =
    (error_response access_denied,
     [EPut (put_req_of demo_lib (failing_world (Some access_denied) None)
              (JStr "u1") (JStr "Bench Press") bench_data)]).
Proof.
  apply (@storage_failure_no_publish Z demo_lib (failing_world (Some access_denied) None)
           bench_event (JStr "POST") bench_kvs bench_data access_denied);
    vm_compute; reflexivity.
Defined.

Lemma publish_failure_after_write_witness :
  lambda_handler demo_lib (failing_world None (Some access_denied)) bench_event =
    (error_response access_denied,
     [EPut (put_req_of demo_lib (failing_world None (Some access_denied))
              (JStr "u1") (JStr "Bench Press") bench_data);
      EPublish (pub_req_of demo_lib (failing_world None (Some access_denied))
                  (JStr "Bench Press") (JInt 3) (JInt 10) (JInt 135)
                  (JStr "felt strong"))]).
Proof.
  apply (@publish_failure_after_write Z demo_lib (failing_world None (Some access_denied))
           bench_event (JStr "POST") bench_kvs bench_data access_denied);
    vm_compute; reflexivity.
Defined.

Lemma stored_record_is_returned_witness :
  exists exercise put pub,
    snd (lambda_handler demo_lib (demo_world 0) bench_event) = [EPut put; EPublish pub] /\
    put_Body put = bench_data /\
    pub_Subject pub = "FitLog: Workout Logged - " ++ py_str demo_lib exercise.
Proof.
  destruct (@stored_record_is_returned Z demo_lib (demo_world 0) bench_event
              (fst (lambda_handler demo_lib (demo_world 0) bench_event))
              (snd (lambda_handler demo_lib (demo_world 0) bench_event))
              bench_data (surjective_pairing _) ltac:(vm_compute; reflexivity))
    as (ex & put & pub & Htr & _ & Hb & _ & _ & _ & Hs).
  exists ex, put, pub; split; [exact Htr |]; split; [exact Hb | exact Hs].
Defined.

Lemma absent_user_and_notes_defaults_witness :
  field (data_of (demo_world 0) squat_event) "userId" = Some (JStr "anonymous") /\
  field (data_of (demo_world 0) squat_event) "notes" = Some (JStr "").
Proof.
  destruct (@absent_user_and_notes_defaults Z demo_lib (demo_world 0) squat_event squat_kvs
              (fst (lambda_handler demo_lib (demo_world 0) squat_event))
              (snd (lambda_handler demo_lib (demo_world 0) squat_event))
              (data_of (demo_world 0) squat_event) eq_refl
              (surjective_pairing _) ltac:(vm_compute; reflexivity))
    as (Hu & Hn).
  split; [exact (proj1 (Hu eq_refl)) | exact (Hn eq_refl)].
Defined.

Lemma summary_ends_with_notes_witness :
  exists notes put pub,
    snd (lambda_handler demo_lib (demo_world 0) bench_event) = [EPut put; EPublish pub] /\
    field bench_data "notes" = Some notes /\
    (truthy demo_lib notes = true ->
     ends_with (pub_Message pub)
       ("Time: " ++ record_time demo_time ++ nl ++ nl ++ "Notes: " ++ py_str demo_lib notes)).
Proof.
  destruct (@summary_ends_with_notes Z demo_lib (demo_world 0) bench_event
              (fst (lambda_handler demo_lib (demo_world 0) bench_event))
              (snd (lambda_handler demo_lib (demo_world 0) bench_event))
              bench_data (surjective_pairing _) ltac:(vm_compute; reflexivity))
    as (no & put & pub & Hn & Htr & _ & Ht).
  exists no, put, pub; split; [exact Htr |]; split; [exact Hn | exact Ht].
Defined.

Lemma same_second_same_key_witness :
  exists p1 q1 p2 q2,
    snd (lambda_handler demo_lib (demo_world 0) bench_event) = [EPut p1; EPublish q1] /\
    snd (lambda_handler demo_lib later_world same_user_event) = [EPut p2; EPublish q2] /\
    put_Key p1 = put_Key p2.
Proof.
  destruct (@same_second_same_key Z demo_lib (demo_world 0) later_world bench_event
              same_user_event
              (fst (lambda_handler demo_lib (demo_world 0) bench_event))
              (snd (lambda_handler demo_lib (demo_world 0) bench_event))
              (data_of (demo_world 0) bench_event)
              (fst (lambda_handler demo_lib later_world same_user_event))
              (snd (lambda_handler demo_lib later_world same_user_event))
              (data_of later_world same_user_event)
              (surjective_pairing _) ltac:(vm_compute; reflexivity)
              (surjective_pairing _) ltac:(vm_compute; reflexivity)
              ltac:(vm_compute; reflexivity) eq_refl
              ltac:(vm_compute; repeat split))
    as (p1 & q1 & p2 & q2 & H1 & H2 & _ & Hk).
  exists p1, q1, p2, q2; split; [exact H1 |]; split; [exact H2 | exact Hk].
Defined.

Lemma bodiless_event_is_its_body_witness :
  lambda_handler demo_lib (demo_world 0) (JObj squat_kvs) =
    lambda_handler demo_lib (demo_world 0) (JObj (("body", JObj squat_kvs) :: squat_kvs)).
Proof.
  apply (@bodiless_event_is_its_body Z demo_lib (demo_world 0) squat_kvs); reflexivity.
Defined.

Lemma string_body_is_decoded_witness :
  lambda_handler json_lib (demo_world 0) (JObj [("body", JStr "{}")]) =
    lambda_handler json_lib (demo_world 0) (JObj [("body", JObj [])]).
Proof.
  apply (@string_body_is_decoded Z json_lib (demo_world 0) [("body", JStr "{}")] "{}");
    try reflexivity.
  intros s H; discriminate.
Defined.

Lemma exception_becomes_500_witness :
  lambda_handler demo_lib (demo_world 0) abc_event =
    (create_response 500
       (JObj [("error", JStr "Failed to log workout");
              ("details", JStr "invalid literal for int() with base 10: 'abc'")]), []).
Proof.
  destruct (@exception_becomes_500 Z demo_lib (demo_world 0) abc_event)
    as (_ & _ & _ & _ & _ & Hconv & _).
  apply (Hconv (JStr "POST") abc_kvs
           (Exn "ValueError" "invalid literal for int() with base 10: 'abc'"));
    vm_compute; reflexivity.
Defined.
